(** * XLSX Data Viewer: the [App] component of src/App.tsx

    A shallow embedding of the state and the event handlers of the React
    component [App] (file ingestion, header validation, filtering, clearing)
    and the proofs of its specified properties.

    - React state ([useState]) is a record [AppState]; every setter is a
      record update; a handler is a function on [AppState].
    - Code that can throw runs in the [completion] monad (normal result or a
      thrown error), so that "does not fault" is a statement, not a
      by-product of totality.
    - Rows decoded by SheetJS are JS objects: finite maps from property
      names to values ([gmap string JSValue]).
    - The JSX that [App] returns is a function [render] from the state to
      what is on screen (file chip, search box, error text, spinner,
      placeholder or table), styling left out.
    - What the JS runtime and SheetJS compute ([String.prototype.toLowerCase],
      [Number.prototype.toString], the decoding of a workbook) is not code of
      the component: the first two are parameters of the development, the
      decoding outcome is the payload of the reader's [onload] event. *)

From Stdlib Require Import String Ascii List Bool ZArith DecimalString.
From stdpp Require Import base option list gmap strings.
Import ListNotations.

Local Open Scope string_scope.

(** ** Completions: a computation returns normally or throws *)

Inductive JSError : Type :=
  | TypeError
  | LibraryError.

Inductive completion (A : Type) : Type :=
  | Normal (a : A)
  | Throw (e : JSError).

Arguments Normal {A} a.
Arguments Throw {A} e.

#[global] Instance completion_ret : MRet completion := fun A a => Normal a.

#[global] Instance completion_bind : MBind completion := fun A B k m =>
  match m with
  | Normal a => k a
  | Throw e => Throw e
  end.

#[global] Instance completion_fmap : FMap completion := fun A B f m =>
  match m with
  | Normal a => Normal (f a)
  | Throw e => Throw e
  end.

(** ** Strings *)

(** [s.startsWith(t)], the helper of [includes]. *)
Fixpoint startsWith (s t : string) {struct t} : bool :=
  match t, s with
  | EmptyString, _ => true
  | String c t', String d s' => Ascii.eqb c d && startsWith s' t'
  | String _ _, EmptyString => false
  end.

(** [s.includes(t)]: [t] occurs in [s] at some position. *)
Fixpoint includes (s t : string) : bool :=
  startsWith s t ||
  match s with
  | EmptyString => false
  | String _ s' => includes s' t
  end.

(** [!s] for a string: only the empty string is falsy. *)
Definition String_falsy (s : string) : bool :=
  match s with
  | EmptyString => true
  | String _ _ => false
  end.

(** [xs.join(sep)]. *)
Fixpoint Array_join (sep : string) (xs : list string) : string :=
  match xs with
  | [] => ""
  | [x] => x
  | x :: rest => x +:+ sep +:+ Array_join sep rest
  end.

(** [xs.includes(x)] on an array of strings. *)
Definition Array_includes (xs : list string) (x : string) : bool :=
  existsb (String.eqb x) xs.

(** [xs.filter(cb)]: the callback runs on every element in order, an element
    is kept when the callback's result is truthy, a throw aborts the scan. *)
Fixpoint Array_filter {A R : Type} (truthy : R -> bool)
    (cb : A -> completion R) (xs : list A) : completion (list A) :=
  match xs with
  | [] => mret []
  | x :: rest =>
      r ← cb x;
      kept ← Array_filter truthy cb rest;
      mret (if truthy r then x :: kept else kept)
  end.

(** ** The JS runtime the component relies on *)

(** The number type with [Number.prototype.toString], and
    [String.prototype.toLowerCase]. *)
Class JSRuntime : Type := {
  number : Type;
  Number_toString : number -> string;
  toLowerCase : string -> string
}.

Section App.

Context `{JSRuntime}.

(** ** Data model *)

(** A cell: string-or-number content, or nothing. *)
Inductive JSValue : Type :=
  | JSUndefined
  | JSNull
  | JSString (s : string)
  | JSNumber (n : number).

(** [v.toString()]: a property access on [undefined] or [null] throws. *)
Definition JS_toString (v : JSValue) : completion string :=
  match v with
  | JSUndefined | JSNull => Throw TypeError
  | JSString s => Normal s
  | JSNumber n => Normal (Number_toString n)
  end.

(** [v?.rest]: [undefined] when [v] is [undefined] or [null] (the rest of
    the chain is not evaluated), the value of the chain otherwise. *)
Definition optional_chain {A : Type} (v : JSValue)
    (rest : JSValue -> completion A) : completion (option A) :=
  match v with
  | JSUndefined | JSNull => Normal None
  | _ => Some <$> rest v
  end.

(** Truthiness of [undefined | boolean]. *)
Definition truthy (r : option bool) : bool :=
  match r with
  | Some b => b
  | None => false
  end.

(** [IRowData]: one row with the five named fields. *)
Record IRowData : Type := mkRow {
  NTE : JSValue;
  Municipio : JSValue;
  Cod_SEC : JSValue;
  Nome_Escola : JSValue;
  Valor : JSValue
}.

(** A row object as SheetJS decodes it ([any]). *)
Definition get (row : gmap string JSValue) (key : string) : JSValue :=
  match row !! key with
  | Some v => v
  | None => JSUndefined
  end.

Definition Object_keys (row : gmap string JSValue) : list string :=
  (map_to_list row).*1.

Record File : Type := mkFile { name : string }.

(** The component's state (the six [useState] cells). *)
Record AppState : Type := mkAppState {
  data : list IRowData;
  filteredData : list IRowData;
  searchTerm : string;
  error : option string;
  fileName : option string;
  isLoading : bool
}.

Definition initialState : AppState :=
  mkAppState [] [] "" None None false.

Definition setData (v : list IRowData) (st : AppState) : AppState :=
  mkAppState v (filteredData st) (searchTerm st) (error st) (fileName st)
    (isLoading st).

Definition setFilteredData (v : list IRowData) (st : AppState) : AppState :=
  mkAppState (data st) v (searchTerm st) (error st) (fileName st)
    (isLoading st).

Definition setSearchTerm (v : string) (st : AppState) : AppState :=
  mkAppState (data st) (filteredData st) v (error st) (fileName st)
    (isLoading st).

Definition setError (v : option string) (st : AppState) : AppState :=
  mkAppState (data st) (filteredData st) (searchTerm st) v (fileName st)
    (isLoading st).

Definition setFileName (v : option string) (st : AppState) : AppState :=
  mkAppState (data st) (filteredData st) (searchTerm st) (error st) v
    (isLoading st).

Definition setIsLoading (v : bool) (st : AppState) : AppState :=
  mkAppState (data st) (filteredData st) (searchTerm st) (error st)
    (fileName st) v.

Definition expectedHeaders : list string :=
  ["NTE"; "Municipio"; "Cod.SEC"; "Nome Escola"; "Valor"].

(** ** Filtering (App.tsx, [filterData]) *)

(** The callback handed to [data.filter]:
    [item['Cod.SEC']?.toString().toLowerCase().includes(lowercasedFilter)]. *)
Definition filterCallback (lowercasedFilter : string) (item : IRowData)
    : completion (option bool) :=
  optional_chain (Cod_SEC item) (fun v =>
    s ← JS_toString v;
    mret (includes (toLowerCase s) lowercasedFilter)).

Definition filterData (st : AppState) : completion AppState :=
  if String_falsy (searchTerm st) then
    mret (setFilteredData (data st) st)
  else
    let lowercasedFilter := toLowerCase (searchTerm st) in
    filtered ← Array_filter truthy (filterCallback lowercasedFilter) (data st);
    mret (setFilteredData filtered st).

(** Whether the scan keeps [item]: the truthiness of the callback's result. *)
Definition keeps (lowercasedFilter : string) (item : IRowData) : bool :=
  match filterCallback lowercasedFilter item with
  | Normal r => truthy r
  | Throw _ => false
  end.

(** The filtered set the component computes when the row set is [rows] and
    the search text is [term]. *)
Definition filteredRows (rows : list IRowData) (term : string)
    : completion (list IRowData) :=
  filteredData <$> filterData (setSearchTerm term (setData rows initialState)).

(** ** File ingestion (App.tsx, [handleFileChange]) *)

Definition emptyFileMsg : string :=
  "The selected file is empty or in an unsupported format.".

Definition missingColumnsMsg : string :=
  "The file is missing required columns. Please ensure it has: "
    +:+ Array_join ", " expectedHeaders +:+ ".".

Definition parseFailedMsg : string :=
  "Failed to parse the XLSX file. Please check the file format and try again.".

Definition readFailedMsg : string :=
  "Failed to read the file.".

(** The synchronous part of [handleFileChange]; [files] is
    [event.target.files] ([null] and the empty list both give no file).
    The reader is started by the last statement and answers later with
    [onload] or [onerror]. *)
Definition handleFileChange (files : list File) (st : AppState) : AppState :=
  match files with
  | [] => st
  | file :: _ =>
      setData [] (setFileName (Some (name file))
        (setError None (setIsLoading true st)))
  end.

(** [jsonData.map(row => ({...}))]: the five fields of one decoded row. *)
Definition typedRow (row : gmap string JSValue) : IRowData :=
  mkRow (get row "NTE") (get row "Municipio") (get row "Cod.SEC")
    (get row "Nome Escola") (get row "Valor").

(** [expectedHeaders.every(header => headers.includes(header))]. *)
Definition hasAllHeaders (headers : list string) : bool :=
  forallb (fun header => Array_includes headers header) expectedHeaders.

(** The body of [try] in [reader.onload]. [xlsx] is what the SheetJS calls
    (lines 31-34) produce: the decoded rows of the first sheet, or a throw. *)
Definition onload_try (xlsx : completion (list (gmap string JSValue)))
    (st : AppState) : completion AppState :=
  jsonData ← xlsx;
  match jsonData with
  | [] =>
      mret (setIsLoading false (setError (Some emptyFileMsg) st))
  | row0 :: _ =>
      let headers := Object_keys row0 in
      if negb (hasAllHeaders headers) then
        mret (setFileName None (setIsLoading false
                (setError (Some missingColumnsMsg) st)))
      else
        let typedData := map typedRow jsonData in
        mret (setData typedData st)
  end.

(** [reader.onload]: [try], [catch], [finally]. *)
Definition reader_onload (xlsx : completion (list (gmap string JSValue)))
    (st : AppState) : AppState :=
  let after :=
    match onload_try xlsx st with
    | Normal st' => st'
    | Throw _ => setFileName None (setError (Some parseFailedMsg) st)
    end in
  setIsLoading false after.

Definition reader_onerror (st : AppState) : AppState :=
  setFileName None (setIsLoading false (setError (Some readFailedMsg) st)).

(** How one read ends. *)
Inductive ReadOutcome : Type :=
  | ReadFailed
  | ReadDone (xlsx : completion (list (gmap string JSValue))).

(** Parse-and-validate for one selected file: the handler, then the
    reader's callback. *)
Definition parseAndValidate (file : File) (outcome : ReadOutcome)
    (st : AppState) : AppState :=
  let started := handleFileChange [file] st in
  match outcome with
  | ReadFailed => reader_onerror started
  | ReadDone xlsx => reader_onload xlsx started
  end.

(** ** Clearing (App.tsx, [clearFile]); the reset of the DOM file input is
    outside the state. *)
Definition clearFile (st : AppState) : AppState :=
  setError None (setFileName None (setSearchTerm ""
    (setFilteredData [] (setData [] st)))).

(** ** Events and rendering *)

Inductive Event : Type :=
  | FileChange (files : list File)
  | ReaderLoad (xlsx : completion (list (gmap string JSValue)))
  | ReaderError
  | SearchChange (value : string)
  | ClearFile.

Definition handle (ev : Event) (st : AppState) : AppState :=
  match ev with
  | FileChange files => handleFileChange files st
  | ReaderLoad xlsx => reader_onload xlsx st
  | ReaderError => reader_onerror st
  | SearchChange value => setSearchTerm value st
  | ClearFile => clearFile st
  end.

(** One event: the handler, then the effect
    [useEffect(() => filterData(), [searchTerm, data, filterData])]. *)
Definition dispatch (ev : Event) (st : AppState) : completion AppState :=
  filterData (handle ev st).

Fixpoint run (evs : list Event) (st : AppState) : completion AppState :=
  match evs with
  | [] => mret st
  | ev :: rest => st' ← dispatch ev st; run rest st'
  end.

(** The filtered set is the one the effect computes from the current row set
    and search text. *)
Definition synced (st : AppState) : Prop :=
  filteredRows (data st) (searchTerm st) = Normal (filteredData st).

(** The rows of the table body: a spinner while loading, a placeholder
    when there is no data, the filtered set otherwise. *)
Definition displayedRows (st : AppState) : list IRowData :=
  if isLoading st then []
  else match data st with
       | [] => []
       | _ :: _ => filteredData st
       end.

(** The event that ends a read. *)
Definition readerEvent (outcome : ReadOutcome) : Event :=
  match outcome with
  | ReadFailed => ReaderError
  | ReadDone xlsx => ReaderLoad xlsx
  end.

(** ** The view (App.tsx, the JSX that [App] returns), without its styling *)

(** The body of the table: one [tr] per filtered row, or the single
    "No results found" row. *)
Inductive TableBody : Type :=
  | Rows (rows : list IRowData)
  | NoResults (term : string).

(** The lower card: the spinner, the "No data to display" placeholder, or the
    table with its header cells. *)
Inductive Panel : Type :=
  | Spinner
  | NoData
  | Table (headers : list string) (body : TableBody).

Record View : Type := mkView {
  fileChip : option string;
  searchValue : string;
  searchDisabled : bool;
  errorText : option string;
  panel : Panel
}.

(** [text && <element>] for [text : string | null]: the element is rendered
    when the text is neither [null] nor empty. *)
Definition shown (text : option string) : option string :=
  match text with
  | Some s => if String_falsy s then None else Some s
  | None => None
  end.

(** [xs.length === 0]. *)
Definition isEmpty {A : Type} (xs : list A) : bool :=
  match xs with
  | [] => true
  | _ :: _ => false
  end.

Definition render (st : AppState) : View :=
  mkView
    (shown (fileName st))
    (searchTerm st)
    (isEmpty (data st))
    (shown (error st))
    (if isLoading st then Spinner
     else if isEmpty (data st) then NoData
     else Table expectedHeaders
            (if negb (isEmpty (filteredData st)) then Rows (filteredData st)
             else NoResults (searchTerm st))).

End App.

(** ** A runtime for worked examples: integers in decimal, ASCII letters *)

Definition ascii_toLowerCase (c : ascii) : ascii :=
  let n := nat_of_ascii c in
  if (65 <=? n)%nat && (n <=? 90)%nat then ascii_of_nat (n + 32) else c.

Fixpoint string_map (f : ascii -> ascii) (s : string) : string :=
  match s with
  | EmptyString => EmptyString
  | String c s' => String (f c) (string_map f s')
  end.

Definition sampleRuntime : JSRuntime := {|
  number := Z;
  Number_toString := fun z => NilZero.string_of_int (Z.to_int z);
  toLowerCase := string_map ascii_toLowerCase
|}.

Definition num (z : Z) : @JSValue sampleRuntime := @JSNumber sampleRuntime z%Z.
Definition txt (s : string) : @JSValue sampleRuntime := @JSString sampleRuntime s.

Definition sampleFile : File := mkFile "escolas.xlsx".

Definition rowA : gmap string (@JSValue sampleRuntime) :=
  list_to_map [("NTE", num 1); ("Municipio", txt "Salvador");
               ("Cod.SEC", txt "Ab12"); ("Nome Escola", txt "Escola A");
               ("Valor", num 100)].

Definition rowB : gmap string (@JSValue sampleRuntime) :=
  list_to_map [("NTE", num 2); ("Municipio", txt "Feira");
               ("Cod.SEC", num 4512); ("Nome Escola", txt "Escola B");
               ("Valor", txt "7,50")].

(** A row with empty [Cod.SEC] and [Valor] cells. *)
Definition rowC : gmap string (@JSValue sampleRuntime) :=
  list_to_map [("NTE", num 3); ("Municipio", txt "Ilheus");
               ("Nome Escola", txt "Escola C")].

(** A row without a [Valor] cell. *)
Definition rowNoValor : gmap string (@JSValue sampleRuntime) :=
  list_to_map [("NTE", num 4); ("Municipio", txt "Itabuna");
               ("Cod.SEC", txt "Zz90"); ("Nome Escola", txt "Escola D")].

Definition sampleSheet : list (gmap string (@JSValue sampleRuntime)) :=
  [rowA; rowB; rowC].

Definition sampleRows : list (@IRowData sampleRuntime) :=
  map typedRow sampleSheet.

Definition loadedState : @AppState sampleRuntime :=
  setData sampleRows initialState.

(** [rowA] with one more column. *)
Definition rowAWithNote : gmap string (@JSValue sampleRuntime) :=
  <["Obs" := txt "visitada"]> rowA.

(** A state in which a search text is already typed. *)
Definition searchingState : @AppState sampleRuntime :=
  setSearchTerm "45" loadedState.

Definition otherFile : File := mkFile "outra.xlsx".

(** ** Strings and arrays: what the runtime helpers compute *)

Lemma startsWith_spec (t s : string) :
  startsWith s t = true <-> exists post, s = t +:+ post.
Proof.
  revert s. induction t as [|c t IH]; intros s; simpl.
  - split; [exists s; reflexivity | reflexivity].
  - destruct s as [|d s].
    + split; [discriminate | intros [post Hp]; discriminate].
    + rewrite andb_true_iff, Ascii.eqb_eq, IH. split.
      * intros [-> [post ->]]. exists post. reflexivity.
      * intros [post Hp]. injection Hp as -> ->. split; eauto.
Qed.

Lemma includes_spec (s t : string) :
  includes s t = true <-> exists pre post, s = pre +:+ t +:+ post.
Proof.
  induction s as [|a s IH].
  - cbn [includes]. rewrite orb_false_r, startsWith_spec. split.
    + intros [post Hp]. exists "", post. exact Hp.
    + intros [pre [post Hp]]. destruct pre; [|discriminate].
      exists post. exact Hp.
  - cbn [includes]. rewrite orb_true_iff, startsWith_spec, IH. split.
    + intros [[post Hp] | [pre [post Hp]]].
      * exists "", post. exact Hp.
      * exists (String a pre), post. simpl. now rewrite Hp.
    + intros [pre [post Hp]]. destruct pre as [|c pre].
      * left. exists post. exact Hp.
      * right. injection Hp as -> ->. eauto.
Qed.

Lemma String_falsy_spec (s : string) : String_falsy s = true <-> s = "".
Proof. destruct s; simpl; split; congruence. Qed.

Lemma Array_includes_spec (xs : list string) (x : string) :
  Array_includes xs x = true <-> x ∈ xs.
Proof.
  unfold Array_includes. rewrite existsb_exists, list_elem_of_In. split.
  - intros [y [Hy Heq]]. apply String.eqb_eq in Heq. now subst.
  - intros Hx. exists x. split; [exact Hx | apply String.eqb_refl].
Qed.

Lemma filter_filter_same {A : Type} (keep : A -> bool) (xs : list A) :
  List.filter keep (List.filter keep xs) = List.filter keep xs.
Proof.
  induction xs as [|x xs IH]; simpl; [reflexivity|].
  destruct (keep x) eqn:Hx; simpl; [rewrite Hx|]; congruence.
Qed.

Lemma filter_sublist_of {A : Type} (keep : A -> bool) (xs : list A) :
  List.filter keep xs `sublist_of` xs.
Proof.
  induction xs as [|x xs IH]; simpl; [constructor|].
  destruct (keep x); now constructor.
Qed.

Lemma string_app_assoc (a b c : string) : (a +:+ b) +:+ c = a +:+ b +:+ c.
Proof.
  induction a as [|x a IH]; [reflexivity|].
  change (String x ((a +:+ b) +:+ c) = String x (a +:+ b +:+ c)).
  now f_equal.
Qed.

Lemma string_app_empty_r (a : string) : a +:+ "" = a.
Proof.
  induction a as [|x a IH]; [reflexivity|].
  change (String x (a +:+ "") = String x a). now f_equal.
Qed.

Lemma includes_refl (s : string) : includes s s = true.
Proof.
  apply includes_spec. exists "", "". simpl. now rewrite string_app_empty_r.
Qed.

Lemma includes_trans (s t u : string) :
  includes s t = true -> includes t u = true -> includes s u = true.
Proof.
  rewrite !includes_spec.
  intros (pre & post & ->) (pre' & post' & ->).
  exists (pre +:+ pre'), (post' +:+ post).
  now rewrite !string_app_assoc.
Qed.

Lemma filter_app_same {A : Type} (keep : A -> bool) (xs ys : list A) :
  List.filter keep (xs ++ ys)%list
  = (List.filter keep xs ++ List.filter keep ys)%list.
Proof.
  induction xs as [|x xs IH]; simpl; [reflexivity|].
  destruct (keep x); simpl; now rewrite IH.
Qed.

Lemma filter_narrower {A : Type} (p q : A -> bool) (xs : list A) :
  (forall x, p x = true -> q x = true) ->
  List.filter p (List.filter q xs) = List.filter p xs.
Proof.
  intros Hpq. induction xs as [|x xs IH]; simpl; [reflexivity|].
  destruct (q x) eqn:Hq; simpl.
  - now rewrite IH.
  - destruct (p x) eqn:Hp; [|exact IH].
    apply Hpq in Hp. congruence.
Qed.

(** A callback that never throws turns [Array_filter] into the list filter. *)
Lemma Array_filter_Normal {A R : Type} (truthy : R -> bool)
    (cb : A -> completion R) (f : A -> R) (xs : list A) :
  (forall x, cb x = Normal (f x)) ->
  Array_filter truthy cb xs = Normal (List.filter (fun x => truthy (f x)) xs).
Proof.
  intros Hcb. induction xs as [|x xs IH]; simpl; [reflexivity|].
  rewrite Hcb, IH. simpl. now destruct (truthy (f x)).
Qed.

Section Properties.

Context `{JSRuntime}.

(** ** The filter scan *)

Lemma filterCallback_total (lf : string) (item : IRowData) :
  exists r, filterCallback lf item = Normal r.
Proof.
  unfold filterCallback, optional_chain.
  destruct (Cod_SEC item); simpl; eauto.
Qed.

Lemma keeps_spec (lf : string) (item : IRowData) :
  keeps lf item = true <->
  exists s, JS_toString (Cod_SEC item) = Normal s /\
            includes (toLowerCase s) lf = true.
Proof.
  unfold keeps, filterCallback, optional_chain.
  destruct (Cod_SEC item) as [| |s|n]; simpl.
  - split; [discriminate | intros [s [Hs _]]; discriminate].
  - split; [discriminate | intros [s [Hs _]]; discriminate].
  - split; [eauto | intros [s' [[= <-] Hs]]; exact Hs].
  - split; [eauto | intros [s' [[= <-] Hs]]; exact Hs].
Qed.

Lemma keeps_Cod_SEC (lf : string) (r r' : IRowData) :
  Cod_SEC r = Cod_SEC r' -> keeps lf r = keeps lf r'.
Proof. unfold keeps, filterCallback. now intros ->. Qed.

Lemma Array_filter_keeps (lf : string) (rows : list IRowData) :
  Array_filter truthy (filterCallback lf) rows
  = Normal (List.filter (keeps lf) rows).
Proof.
  induction rows as [|r rows IH]; simpl; [reflexivity|].
  unfold keeps at 1.
  destruct (filterCallback_total lf r) as [v ->]. simpl.
  rewrite IH. reflexivity.
Qed.

Lemma filterData_eq (st : AppState) :
  filterData st =
  Normal (setFilteredData
            (if String_falsy (searchTerm st) then data st
             else List.filter (keeps (toLowerCase (searchTerm st))) (data st))
            st).
Proof.
  unfold filterData. destruct (String_falsy (searchTerm st)); [reflexivity|].
  simpl. rewrite Array_filter_keeps. reflexivity.
Qed.

Lemma filteredRows_eq (rows : list IRowData) (term : string) :
  filteredRows rows term =
  Normal (if String_falsy term then rows
          else List.filter (keeps (toLowerCase term)) rows).
Proof. unfold filteredRows. rewrite filterData_eq. reflexivity. Qed.

(** In every state the effect computes [filteredRows] of the state's row
    set and search text, and touches nothing but the filtered set. *)
Lemma filterData_filteredRows (st : AppState) :
  filterData st =
  (rows ← filteredRows (data st) (searchTerm st);
   mret (setFilteredData rows st)).
Proof. rewrite filterData_eq, filteredRows_eq. reflexivity. Qed.

(** ** Properties of filtering *)

(** C1. For a non-empty search text the filtered set is the row set
    filtered, in order, by a test that holds of a row exactly when its
    [Cod.SEC] field has a string form ([toString]) whose lowercase contains
    the lowercased search text as a substring; the test gives the same
    answer on two rows that agree on [Cod.SEC], whatever their other
    fields. *)
Theorem filter_matches_Cod_SEC_only (rows : list IRowData) (term : string) :
  term <> "" ->
  exists keep : IRowData -> bool,
    filteredRows rows term = Normal (List.filter keep rows) /\
    (forall r, keep r = true <->
       exists s, JS_toString (Cod_SEC r) = Normal s /\
         exists pre post, toLowerCase s = pre +:+ toLowerCase term +:+ post) /\
    (forall r r', Cod_SEC r = Cod_SEC r' -> keep r = keep r').
Proof.
  intros Hterm. exists (keeps (toLowerCase term)). repeat split.
  - rewrite filteredRows_eq. destruct term; [congruence | reflexivity].
  - rewrite keeps_spec. intros [s [Hs Hinc]]. exists s.
    split; [exact Hs | now apply includes_spec].
  - intros [s [Hs Hsub]]. apply keeps_spec. exists s.
    split; [exact Hs | now apply includes_spec].
  - apply keeps_Cod_SEC.
Qed.

(** C2. With the empty search text the filter hands back the row set as it
    is: same rows, same count, and once loading is over the table shows as
    many rows as the row set holds. *)
Theorem filter_empty_term_full_set (st : AppState) :
  searchTerm st = "" ->
  exists st', filterData st = Normal st' /\
    filteredData st' = data st /\
    data st' = data st /\
    length (filteredData st') = length (data st) /\
    (isLoading st = false -> length (displayedRows st') = length (data st)).
Proof.
  intros Hterm. eexists. split; [apply filterData_eq|].
  rewrite Hterm. simpl. repeat split.
  intros Hload. unfold displayedRows. simpl. rewrite Hload.
  now destruct (data st).
Qed.

(** C7. Filtering is idempotent: filtering the output once more with the
    same term returns the same list. *)
Theorem filter_idempotent (rows : list IRowData) (term : string) :
  exists once, filteredRows rows term = Normal once /\
               filteredRows once term = Normal once.
Proof.
  eexists. split; [apply filteredRows_eq|].
  rewrite filteredRows_eq. destruct (String_falsy term); [reflexivity|].
  now rewrite filter_filter_same.
Qed.

(** C9. For a non-empty search text the callback on a row whose [Cod.SEC]
    is [null] or [undefined] completes normally with [undefined] (the
    optional chain stops before [toString]), the scan completes normally,
    and no such row is in the filtered set. *)
Theorem filter_null_Cod_SEC_excluded (rows : list IRowData) (term : string) :
  term <> "" ->
  (forall item, Cod_SEC item = JSNull \/ Cod_SEC item = JSUndefined ->
     filterCallback (toLowerCase term) item = Normal None) /\
  exists out, filteredRows rows term = Normal out /\
    forall item, In item out ->
      Cod_SEC item <> JSNull /\ Cod_SEC item <> JSUndefined.
Proof.
  intros Hterm. split.
  - intros item [Hc | Hc]; unfold filterCallback; now rewrite Hc.
  - eexists. split; [apply filteredRows_eq|].
    destruct term; [congruence|]. cbn [String_falsy].
    intros item Hin. apply filter_In in Hin as [_ Hkeep].
    apply keeps_spec in Hkeep as [s [Hs _]].
    split; intros Hc; rewrite Hc in Hs; discriminate.
Qed.

(** C10. The filtered set is a subsequence of the row set: rows are only
    removed, never reordered, duplicated or changed. *)
Theorem filter_subsequence (rows : list IRowData) (term : string) :
  exists out, filteredRows rows term = Normal out /\ out `sublist_of` rows.
Proof.
  eexists. split; [apply filteredRows_eq|].
  destruct (String_falsy term); [reflexivity | apply filter_sublist_of].
Qed.

(** ** Further properties of filtering *)

(** X1. Two search texts with the same lowercase give the same filtered set:
    the case of the letters typed does not matter. *)
Theorem filter_term_case_insensitive (rows : list IRowData)
    (term term' : string) :
  term <> "" -> term' <> "" ->
  toLowerCase term = toLowerCase term' ->
  filteredRows rows term = filteredRows rows term'.
Proof.
  intros Ht Ht' Hlow. rewrite !filteredRows_eq.
  destruct term; [congruence|]. destruct term'; [congruence|].
  cbn [String_falsy]. now rewrite Hlow.
Qed.

(** X2. A row whose [Cod.SEC], as a string, equals the search text up to case is
    in the filtered set. *)
Theorem filter_finds_exact_code (rows : list IRowData) (term s : string)
    (r : IRowData) :
  term <> "" -> In r rows ->
  JS_toString (Cod_SEC r) = Normal s ->
  toLowerCase s = toLowerCase term ->
  exists out, filteredRows rows term = Normal out /\ In r out.
Proof.
  intros Ht Hin Hs Hlow. eexists. split; [apply filteredRows_eq|].
  destruct term; [congruence|]. cbn [String_falsy].
  apply filter_In. split; [exact Hin|].
  apply keeps_spec. exists s. split; [exact Hs|].
  rewrite Hlow. apply includes_refl.
Qed.

(** X3. Rows are judged one by one: filtering two row lists put end to end gives
    the two filtered lists put end to end. *)
Theorem filter_append (xs ys : list IRowData) (term : string) :
  exists a b,
    filteredRows xs term = Normal a /\
    filteredRows ys term = Normal b /\
    filteredRows (xs ++ ys)%list term = Normal (a ++ b)%list.
Proof.
  do 2 eexists. split; [apply filteredRows_eq|]. split; [apply filteredRows_eq|].
  rewrite filteredRows_eq. destruct (String_falsy term); [reflexivity|].
  now rewrite filter_app_same.
Qed.

(** X4. Extending the search text narrows the result: when the lowercased longer
    text contains the lowercased shorter one, the rows found for the longer
    text are a subsequence of the rows found for the shorter one, and are
    what filtering those rows by the longer text gives. *)
Theorem filter_longer_term_narrows (rows : list IRowData)
    (term term' : string) :
  term' <> "" ->
  includes (toLowerCase term') (toLowerCase term) = true ->
  exists out out',
    filteredRows rows term = Normal out /\
    filteredRows rows term' = Normal out' /\
    out' `sublist_of` out /\
    filteredRows out term' = Normal out'.
Proof.
  intros Ht' Hinc. do 2 eexists.
  split; [apply filteredRows_eq|]. split; [apply filteredRows_eq|].
  rewrite filteredRows_eq.
  destruct term'; [congruence|]. cbn [String_falsy].
  destruct (String_falsy term).
  - split; [apply filter_sublist_of | reflexivity].
  - assert (Hnarrow : List.filter (keeps (toLowerCase (String a term')))
                        (List.filter (keeps (toLowerCase term)) rows)
                      = List.filter (keeps (toLowerCase (String a term'))) rows).
    { apply filter_narrower. intros r. rewrite !keeps_spec.
      intros (s & Hs & Hin). exists s. split; [exact Hs|].
      eapply includes_trans; eauto. }
    split; [|now rewrite Hnarrow].
    rewrite <- Hnarrow. apply filter_sublist_of.
Qed.

(** ** Header validation *)

Lemma Object_keys_spec (row : gmap string JSValue) (h : string) :
  h ∈ Object_keys row <-> is_Some (row !! h).
Proof.
  unfold Object_keys. rewrite list_elem_of_fmap. split.
  - intros [[k v] [-> Hkv]]. apply elem_of_map_to_list in Hkv. now exists v.
  - intros [v Hv]. exists (h, v). split; [reflexivity|].
    now apply elem_of_map_to_list.
Qed.

Lemma hasAllHeaders_spec (headers : list string) :
  hasAllHeaders headers = true <->
  forall h, h ∈ expectedHeaders -> h ∈ headers.
Proof.
  unfold hasAllHeaders. rewrite forallb_forall. split.
  - intros Hall h Hh. apply Array_includes_spec, Hall.
    now apply list_elem_of_In.
  - intros Hall h Hh. apply Array_includes_spec, Hall.
    now apply list_elem_of_In.
Qed.

Lemma hasAllHeaders_missing (headers : list string) (h : string) :
  h ∈ expectedHeaders -> h ∉ headers -> hasAllHeaders headers = false.
Proof.
  intros Hh Hmiss. destruct (hasAllHeaders headers) eqn:Hall; [|reflexivity].
  exfalso. apply Hmiss. now apply hasAllHeaders_spec.
Qed.

(** The three ways [onload] ends on decoded rows. *)
Lemma reader_onload_empty (st : AppState) :
  reader_onload (Normal []) st
  = setIsLoading false (setIsLoading false (setError (Some emptyFileMsg) st)).
Proof. reflexivity. Qed.

Lemma reader_onload_rejected (row0 : gmap string JSValue)
    (rest : list (gmap string JSValue)) (st : AppState) :
  hasAllHeaders (Object_keys row0) = false ->
  reader_onload (Normal (row0 :: rest)) st
  = setIsLoading false (setFileName None (setIsLoading false
      (setError (Some missingColumnsMsg) st))).
Proof. intros Hh. unfold reader_onload. simpl. now rewrite Hh. Qed.

Lemma reader_onload_accepted (row0 : gmap string JSValue)
    (rest : list (gmap string JSValue)) (st : AppState) :
  hasAllHeaders (Object_keys row0) = true ->
  reader_onload (Normal (row0 :: rest)) st
  = setIsLoading false (setData (map typedRow (row0 :: rest)) st).
Proof. intros Hh. unfold reader_onload. simpl. now rewrite Hh. Qed.

(** A rejection writes no rows: the row set is the one [handleFileChange]
    left. *)
Lemma reader_onload_rejected_data (row0 : gmap string JSValue)
    (rest : list (gmap string JSValue)) (st : AppState) :
  hasAllHeaders (Object_keys row0) = false ->
  data (reader_onload (Normal (row0 :: rest)) st) = data st.
Proof. intros Hh. now rewrite reader_onload_rejected. Qed.

(** ** Properties of parse-and-validate *)

(** Each stored row holds, field by field, the entry of its decoded row under
    the field's column name, and [undefined] where the row has none. *)
Lemma typedRow_cells (sheet : list (gmap string JSValue)) :
  Forall2 (fun row stored =>
             NTE stored = default JSUndefined (row !! "NTE") /\
             Municipio stored = default JSUndefined (row !! "Municipio") /\
             Cod_SEC stored = default JSUndefined (row !! "Cod.SEC") /\
             Nome_Escola stored = default JSUndefined (row !! "Nome Escola") /\
             Valor stored = default JSUndefined (row !! "Valor"))
    sheet (map typedRow sheet).
Proof.
  induction sheet as [|row sheet IH]; simpl; constructor; [|exact IH].
  unfold typedRow, get. simpl.
  repeat split; match goal with |- context [row !! ?k] =>
    destruct (row !! k); reflexivity end.
Qed.

(** C3. On decoded rows, parse-and-validate populates the row set exactly
    when there is a first row whose keys hold all five expected column
    names. It then stores one row per decoded row, in order, each with the
    five cells of its decoded row ([undefined] for a cell the row lacks), and
    no error. Otherwise it stores no row at all and sets an error message. *)
Theorem parse_accepts_iff_all_headers (st : AppState) (file : File)
    (jsonData : list (gmap string JSValue)) :
  let st' := parseAndValidate file (ReadDone (Normal jsonData)) st in
  let allPresent :=
    exists row0 rest, jsonData = row0 :: rest /\
      forall h, h ∈ expectedHeaders -> h ∈ Object_keys row0 in
  (data st' <> [] <-> allPresent) /\
  (allPresent ->
     data st' = map typedRow jsonData /\
     length (data st') = length jsonData /\
     Forall2 (fun row stored =>
                NTE stored = default JSUndefined (row !! "NTE") /\
                Municipio stored = default JSUndefined (row !! "Municipio") /\
                Cod_SEC stored = default JSUndefined (row !! "Cod.SEC") /\
                Nome_Escola stored
                  = default JSUndefined (row !! "Nome Escola") /\
                Valor stored = default JSUndefined (row !! "Valor"))
       jsonData (data st') /\
     error st' = None) /\
  (~ allPresent ->
     data st' = [] /\
     (error st' = Some emptyFileMsg \/ error st' = Some missingColumnsMsg)).
Proof.
  intros st' allPresent. subst st' allPresent. unfold parseAndValidate.
  destruct jsonData as [|row0 rest].
  - assert (Habsent : ~ exists r0 rs, @nil (gmap string JSValue) = r0 :: rs /\
              forall h, h ∈ expectedHeaders -> h ∈ Object_keys r0).
    { intros (r0 & rs & Hnil & _). discriminate Hnil. }
    simpl. split; [tauto|]. split; [tauto|]. intros _. split; [reflexivity|].
    now left.
  - destruct (hasAllHeaders (Object_keys row0)) eqn:Hall.
    + rewrite reader_onload_accepted by exact Hall.
      assert (Hpresent : exists r0 rs, row0 :: rest = r0 :: rs /\
                forall h, h ∈ expectedHeaders -> h ∈ Object_keys r0).
      { exists row0, rest. split; [reflexivity|].
        now apply hasAllHeaders_spec. }
      cbn [data setIsLoading setData error handleFileChange setFileName
           setError].
      split; [split; [tauto | discriminate]|].
      split; [|tauto]. intros _. split; [reflexivity|].
      split; [now rewrite length_map|].
      split; [apply typedRow_cells | reflexivity].
    + rewrite reader_onload_rejected by exact Hall.
      assert (Habsent : ~ exists r0 rs, row0 :: rest = r0 :: rs /\
                forall h, h ∈ expectedHeaders -> h ∈ Object_keys r0).
      { intros (r0 & rs & [= <- <-] & Hk).
        apply hasAllHeaders_spec in Hk. congruence. }
      simpl. split; [tauto|]. split; [tauto|]. intros _.
      split; [reflexivity|]. now right.
Qed.

(** C4 (amended). When the sheet has a first row and that row lacks one of
    the five expected column names, [onload] sets the missing-columns message,
    clears the filename, ends loading and writes no row: the row set is the
    one it found. It is therefore empty when the callback directly follows
    the selection of the file, as in parse-and-validate. *)
Theorem missing_column_rejected (st : AppState) (file : File)
    (row0 : gmap string JSValue) (rest : list (gmap string JSValue))
    (h : string) :
  h ∈ expectedHeaders -> h ∉ Object_keys row0 ->
  (let after := reader_onload (Normal (row0 :: rest)) st in
   error after = Some missingColumnsMsg /\ fileName after = None /\
   isLoading after = false /\ data after = data st) /\
  (let st' := parseAndValidate file (ReadDone (Normal (row0 :: rest))) st in
   error st' = Some missingColumnsMsg /\ data st' = []).
Proof.
  intros Hh Hmiss. unfold parseAndValidate.
  rewrite !reader_onload_rejected by (eapply hasAllHeaders_missing; eauto).
  repeat split.
Qed.

(** C5 (the code differs). A file that decodes to no rows ends with the
    empty-file message and an empty row set, but the stored filename is
    still the name of the selected file: this branch does not clear it. *)
Theorem empty_file_keeps_fileName (st : AppState) (file : File) :
  let st' := parseAndValidate file (ReadDone (Normal [])) st in
  error st' = Some emptyFileMsg /\ data st' = [] /\
  fileName st' = Some (name file).
Proof. repeat split. Qed.

(** The other error branches (the decoding throws, a column is missing, the
    read fails) do clear the filename, and leave the row set empty. *)
Lemma other_errors_clear_fileName (st : AppState) (file : File) :
  (forall e, let st' := parseAndValidate file (ReadDone (Throw e)) st in
     error st' = Some parseFailedMsg /\ data st' = [] /\ fileName st' = None) /\
  (forall row0 rest, hasAllHeaders (Object_keys row0) = false ->
     let st' := parseAndValidate file (ReadDone (Normal (row0 :: rest))) st in
     error st' = Some missingColumnsMsg /\ data st' = [] /\
     fileName st' = None) /\
  (let st' := parseAndValidate file ReadFailed st in
     error st' = Some readFailedMsg /\ data st' = [] /\ fileName st' = None).
Proof.
  repeat split.
  all: unfold parseAndValidate; rewrite reader_onload_rejected by assumption.
  all: reflexivity.
Qed.

(** Every way a read can end leaves the component out of the loading
    state: no outcome is fatal. *)
Lemma parseAndValidate_not_loading (st : AppState) (file : File)
    (outcome : ReadOutcome) :
  isLoading (parseAndValidate file outcome st) = false.
Proof. destruct outcome; reflexivity. Qed.

(** C8. The verdict is read off the first decoded row alone. If the first
    row has no entry for some expected column name the file is rejected
    with the missing-columns message, whatever the later rows hold; if the
    first row has an entry for each of them the file is accepted, whatever
    the later rows lack. *)
Theorem header_check_first_row_only (st : AppState) (file : File)
    (row0 : gmap string JSValue) (rest : list (gmap string JSValue)) :
  let st' := parseAndValidate file (ReadDone (Normal (row0 :: rest))) st in
  (forall h, h ∈ expectedHeaders -> row0 !! h = None ->
     error st' = Some missingColumnsMsg /\ data st' = [] /\
     fileName st' = None) /\
  ((forall h, h ∈ expectedHeaders -> is_Some (row0 !! h)) ->
     error st' = None /\ data st' = map typedRow (row0 :: rest)).
Proof.
  unfold parseAndValidate. split.
  - intros h Hh Hnone.
    rewrite reader_onload_rejected; [repeat split|].
    apply (hasAllHeaders_missing _ h Hh).
    rewrite Object_keys_spec, Hnone. now intros [v Hv].
  - intros Hall. rewrite reader_onload_accepted; [split; reflexivity|].
    apply hasAllHeaders_spec. intros h Hh. now apply Object_keys_spec, Hall.
Qed.

(** ** Clearing *)

(** C6. From any state [clearFile] leaves the row set and the filtered set
    empty, the search text empty, and the filename and the error unset; the
    effect that follows changes none of them. *)
Theorem clearFile_resets (st : AppState) :
  let st' := clearFile st in
  data st' = [] /\ filteredData st' = [] /\ searchTerm st' = "" /\
  fileName st' = None /\ error st' = None /\
  dispatch ClearFile st = Normal st'.
Proof. repeat split. Qed.

(** ** The component as a machine: every event is handled, and the
    filtered set follows the row set and the search text *)

Lemma dispatch_total (ev : Event) (st : AppState) :
  exists st', dispatch ev st = Normal st' /\ synced st'.
Proof.
  unfold dispatch. eexists. split; [apply filterData_eq|].
  unfold synced. rewrite filteredRows_eq. reflexivity.
Qed.

Lemma run_total (evs : list Event) (st : AppState) :
  exists st', run evs st = Normal st'.
Proof.
  revert st. induction evs as [|ev evs IH]; intros st; simpl; [eauto|].
  destruct (dispatch_total ev st) as [st1 [-> _]]. simpl. apply IH.
Qed.

(** When nothing the effect depends on has changed, running it again
    changes nothing. *)
Lemma synced_filterData (st : AppState) :
  synced st -> filterData st = Normal st.
Proof.
  unfold synced. rewrite filterData_eq, filteredRows_eq.
  intros [= Hrows]. rewrite Hrows. now destruct st.
Qed.

(** A file with the five columns, loaded while the search text is empty,
    shows one table row per decoded row. *)
Lemma upload_shows_all_rows (st : AppState) (file : File)
    (row0 : gmap string JSValue) (rest : list (gmap string JSValue)) :
  searchTerm st = "" ->
  hasAllHeaders (Object_keys row0) = true ->
  exists st',
    run [FileChange [file]; ReaderLoad (Normal (row0 :: rest))] st
      = Normal st' /\
    length (displayedRows st') = length (row0 :: rest).
Proof.
  intros Hterm Hall. unfold run, dispatch, handle.
  rewrite filterData_eq. simpl.
  rewrite reader_onload_accepted by exact Hall.
  rewrite filterData_eq. simpl. rewrite Hterm. simpl.
  eexists. split; [reflexivity|].
  unfold displayedRows. simpl. now rewrite length_map.
Qed.

(** ** Further properties of the machine *)

Local Abbreviation visible st :=
  (if String_falsy (searchTerm st) then data st
   else List.filter (keeps (toLowerCase (searchTerm st))) (data st)).

Lemma dispatch_eq (ev : Event) (st : AppState) :
  dispatch ev st
  = Normal (setFilteredData (visible (handle ev st)) (handle ev st)).
Proof. unfold dispatch. apply filterData_eq. Qed.

Lemma run_cons (ev : Event) (evs : list Event) (st : AppState) :
  run (ev :: evs) st
  = run evs (setFilteredData (visible (handle ev st)) (handle ev st)).
Proof. cbn [run]. now rewrite dispatch_eq. Qed.

Ltac expected_header := apply list_elem_of_In; simpl; tauto.

(** X5. No sequence of events makes the component throw, and after the last
    event the filtered set is the filter of the row set by the search text. *)
Theorem run_never_throws (ev : Event) (evs : list Event) (st : AppState) :
  exists st', run (ev :: evs) st = Normal st' /\ synced st'.
Proof.
  revert ev st. induction evs as [|ev' evs IH]; intros ev st.
  - cbn [run]. destruct (dispatch_total ev st) as (st1 & -> & Hsync).
    exists st1. split; [reflexivity | exact Hsync].
  - rewrite run_cons. apply IH.
Qed.

(** X6. Once an event has been handled, running the effect again changes
    nothing, and neither does a file dialog closed without a file. *)
Theorem effect_is_stable (ev : Event) (st : AppState) :
  exists st1, dispatch ev st = Normal st1 /\
    filterData st1 = Normal st1 /\
    dispatch (FileChange []) st1 = Normal st1.
Proof.
  destruct (dispatch_total ev st) as (st1 & Hst1 & Hsync).
  exists st1. split; [exact Hst1|].
  split; now apply synced_filterData.
Qed.

(** X7. Selecting a file empties the row set and the filtered set at once,
    before the read ends: the spinner is shown, the error is reset, the
    filename is that of the first selected file and the search text is kept. *)
Theorem selecting_a_file_drops_old_rows (file : File) (files : list File)
    (st : AppState) :
  exists st', dispatch (FileChange (file :: files)) st = Normal st' /\
    data st' = [] /\ filteredData st' = [] /\
    isLoading st' = true /\ error st' = None /\
    fileName st' = Some (name file) /\
    searchTerm st' = searchTerm st /\
    panel (render st') = Spinner.
Proof.
  eexists. split; [apply dispatch_eq|]. simpl.
  destruct (String_falsy (searchTerm st)); repeat split.
Qed.

(** X8. Typing in the search box changes the search text and the filtered set
    only: the row set, the filename, the error and the loading flag stay. *)
Theorem search_change_keeps_rows (value : string) (st : AppState) :
  exists st', dispatch (SearchChange value) st = Normal st' /\
    searchTerm st' = value /\
    filteredRows (data st) value = Normal (filteredData st') /\
    data st' = data st /\ fileName st' = fileName st /\
    error st' = error st /\ isLoading st' = isLoading st.
Proof.
  eexists. split; [apply dispatch_eq|]. simpl.
  rewrite filteredRows_eq. repeat split.
Qed.

(** ** Further properties of parse-and-validate *)

Lemma typedRow_agree (r r' : gmap string JSValue) :
  (forall h, h ∈ expectedHeaders -> r !! h = r' !! h) ->
  typedRow r = typedRow r'.
Proof.
  intros Hagree. unfold typedRow, get.
  rewrite (Hagree "NTE") by expected_header.
  rewrite (Hagree "Municipio") by expected_header.
  rewrite (Hagree "Cod.SEC") by expected_header.
  rewrite (Hagree "Nome Escola") by expected_header.
  rewrite (Hagree "Valor") by expected_header.
  reflexivity.
Qed.

Lemma hasAllHeaders_agree (r r' : gmap string JSValue) :
  (forall h, h ∈ expectedHeaders -> r !! h = r' !! h) ->
  hasAllHeaders (Object_keys r) = hasAllHeaders (Object_keys r').
Proof.
  intros Hagree. apply eq_iff_eq_true. rewrite !hasAllHeaders_spec.
  split; intros Hall h Hh; apply Object_keys_spec;
    [rewrite <- (Hagree h Hh) | rewrite (Hagree h Hh)];
    now apply Object_keys_spec, Hall.
Qed.

(** X9. Only the five expected columns of a sheet matter: two sheets whose rows
    agree, one by one, on the entries for the five names are accepted or
    rejected alike and leave the same state. *)
Theorem onload_reads_five_columns_only (st : AppState)
    (sheet sheet' : list (gmap string JSValue)) :
  Forall2 (fun r r' => forall h, h ∈ expectedHeaders -> r !! h = r' !! h)
    sheet sheet' ->
  reader_onload (Normal sheet) st = reader_onload (Normal sheet') st.
Proof.
  intros Hsheets.
  assert (Hmap : map typedRow sheet = map typedRow sheet').
  { induction Hsheets as [|r r' rs rs' Hr _ IH]; simpl; [reflexivity|].
    now rewrite (typedRow_agree r r' Hr), IH. }
  destruct Hsheets as [|r r' rs rs' Hr Hrs]; [reflexivity|].
  pose proof (hasAllHeaders_agree r r' Hr) as Hall.
  destruct (hasAllHeaders (Object_keys r)) eqn:Hh.
  - rewrite !reader_onload_accepted by congruence. now rewrite Hmap.
  - now rewrite !reader_onload_rejected by congruence.
Qed.

(** X10. When the selection of a file is directly followed by the end of
    its read, whatever way, and the filter effect, there is an error message
    exactly when the row set is empty, and the row set is empty or is the
    stored form of the whole new sheet; loading is over and the search text is
    the one before. (Reads that overlap are another matter: see
    [late_read_overwrites_rows].) *)
Theorem upload_error_iff_no_rows (st : AppState) (file : File)
    (outcome : ReadOutcome) :
  exists st',
    run [FileChange [file]; readerEvent outcome] st = Normal st' /\
    (error st' = None <-> data st' <> []) /\
    (data st' = [] \/
     exists sheet, outcome = ReadDone (Normal sheet) /\
                   data st' = map typedRow sheet) /\
    isLoading st' = false /\ searchTerm st' = searchTerm st.
Proof.
  eexists. rewrite !run_cons. cbn [run handle handleFileChange].
  split; [reflexivity|].
  destruct outcome as [|[[|row0 rest]|e]]; cbn [readerEvent handle].
  - simpl. repeat split; try congruence; now left.
  - simpl. repeat split; try congruence; now left.
  - destruct (hasAllHeaders (Object_keys row0)) eqn:Hall.
    + rewrite reader_onload_accepted by exact Hall. simpl.
      repeat split; try congruence. right. eauto.
    + rewrite reader_onload_rejected by exact Hall. simpl.
      repeat split; try congruence; now left.
  - simpl. repeat split; try congruence; now left.
Qed.

(** X11. What the component holds after an upload depends on the file, on how the
    read ended and on the search text, and on nothing else of the state
    before. *)
Theorem upload_forgets_history (st1 st2 : AppState) (file : File)
    (outcome : ReadOutcome) :
  searchTerm st1 = searchTerm st2 ->
  run [FileChange [file]; readerEvent outcome] st1
  = run [FileChange [file]; readerEvent outcome] st2.
Proof.
  intros Hterm. rewrite !run_cons. cbn [run]. cbn [handle handleFileChange].
  destruct st1 as [d1 f1 t1 e1 n1 l1], st2 as [d2 f2 t2 e2 n2 l2].
  simpl in Hterm. subst t2.
  destruct outcome as [|[[|row0 rest]|e]]; reflexivity.
Qed.

(** X12. Clearing after an upload has ended, whatever way, gives the initial
    state back. *)
Theorem clear_after_upload_is_initial (st : AppState) (file : File)
    (outcome : ReadOutcome) :
  run [FileChange [file]; readerEvent outcome; ClearFile] st
  = Normal initialState.
Proof.
  rewrite !run_cons. cbn [run]. cbn [handle handleFileChange].
  destruct outcome as [|[[|row0 rest]|e]]; reflexivity.
Qed.

(** X13. A file with the five columns, loaded while a search text is set, shows
    the rows of the new sheet that match that text. *)
Theorem upload_keeps_search_text (st : AppState) (file : File)
    (row0 : gmap string JSValue) (rest : list (gmap string JSValue)) :
  hasAllHeaders (Object_keys row0) = true ->
  exists st',
    run [FileChange [file]; ReaderLoad (Normal (row0 :: rest))] st
      = Normal st' /\
    searchTerm st' = searchTerm st /\
    filteredRows (map typedRow (row0 :: rest)) (searchTerm st)
      = Normal (filteredData st') /\
    displayedRows st' = filteredData st'.
Proof.
  intros Hall. eexists. rewrite !run_cons. cbn [run handle handleFileChange].
  rewrite reader_onload_accepted by exact Hall.
  split; [reflexivity|]. simpl. rewrite filteredRows_eq. repeat split.
Qed.

(** X14. Clearing does not cancel a pending read: when the read of a valid sheet
    ends after the clear, its rows are loaded and shown, with no filename and
    so without the chip that holds the clear button. *)
Theorem clear_does_not_cancel_read (st : AppState) (file : File)
    (row0 : gmap string JSValue) (rest : list (gmap string JSValue)) :
  hasAllHeaders (Object_keys row0) = true ->
  exists st',
    run [FileChange [file]; ClearFile; ReaderLoad (Normal (row0 :: rest))] st
      = Normal st' /\
    data st' = map typedRow (row0 :: rest) /\
    displayedRows st' = data st' /\
    fileName st' = None /\ fileChip (render st') = None.
Proof.
  intros Hall. eexists. rewrite !run_cons. cbn [run handle handleFileChange].
  cbn [handle]. rewrite reader_onload_accepted by exact Hall.
  split; [reflexivity|]. simpl. repeat split.
Qed.

(** X15. Reads are not tied to the selection: when two files are selected one
    after the other and the read of the first ends last, the row set is the
    first file's sheet while the filename is the second file's. *)
Theorem late_read_overwrites_rows (st : AppState) (fileA fileB : File)
    (a0 b0 : gmap string JSValue) (restA restB : list (gmap string JSValue)) :
  hasAllHeaders (Object_keys a0) = true ->
  hasAllHeaders (Object_keys b0) = true ->
  exists st',
    run [FileChange [fileA]; FileChange [fileB];
         ReaderLoad (Normal (b0 :: restB)); ReaderLoad (Normal (a0 :: restA))] st
      = Normal st' /\
    data st' = map typedRow (a0 :: restA) /\
    fileName st' = Some (name fileB) /\ error st' = None.
Proof.
  intros HA HB. eexists. rewrite !run_cons. cbn [run handle handleFileChange].
  rewrite (reader_onload_accepted b0) by exact HB.
  rewrite (reader_onload_accepted a0) by exact HA.
  split; [reflexivity|]. simpl. repeat split.
Qed.

(** X16. After an upload and a search, no sheet row with an empty [Cod.SEC] cell
    is in the table. *)
Theorem empty_code_cell_hidden_by_search (st : AppState) (file : File)
    (row0 : gmap string JSValue) (rest : list (gmap string JSValue))
    (term : string) :
  hasAllHeaders (Object_keys row0) = true -> term <> "" ->
  exists st',
    run [FileChange [file]; ReaderLoad (Normal (row0 :: rest));
         SearchChange term] st = Normal st' /\
    forall row, In row (row0 :: rest) -> row !! "Cod.SEC" = None ->
      ~ In (typedRow row) (displayedRows st').
Proof.
  intros Hall Hterm. eexists. rewrite !run_cons.
  cbn [run handle handleFileChange].
  rewrite reader_onload_accepted by exact Hall.
  split; [reflexivity|].
  intros row _ Hnone Hin. unfold displayedRows in Hin.
  cbn -[List.filter keeps typedRow] in Hin.
  destruct term; [congruence|]. cbn [String_falsy] in Hin.
  apply filter_In in Hin as [_ Hkeep].
  apply keeps_spec in Hkeep as (s & Hs & _).
  unfold typedRow, get in Hs. simpl in Hs. rewrite Hnone in Hs. discriminate.
Qed.

(** ** Properties of the view *)

(** X17. In the view rendered once the filter effect has run after an event
    (the state that [dispatch] returns), the "No results found" row is present
    only for a non-empty search text, with rows loaded, none of which
    matches; the text it quotes is the search text. The render committed
    between the handler and the effect is not covered: it still shows the
    filtered set of the state before (see [no_results_flash_after_onload]). *)
Theorem no_results_only_when_nothing_matches (ev : Event) (st : AppState) :
  exists st', dispatch ev st = Normal st' /\
    forall hs t, panel (render st') = Table hs (NoResults t) ->
      t = searchTerm st' /\ t <> "" /\ data st' <> [] /\
      filteredRows (data st') t = Normal [].
Proof.
  eexists. split; [apply dispatch_eq|].
  generalize (handle ev st). intros s hs t. unfold render. simpl.
  destruct (isLoading s); [discriminate|].
  destruct (data s) as [|r rows] eqn:Hdata; cbn [isEmpty]; [discriminate|].
  destruct (String_falsy (searchTerm s)) eqn:Hfalsy; [discriminate|].
  destruct (List.filter _ (r :: rows)) as [|r' kept] eqn:Hfilter;
    cbn [isEmpty negb]; [|discriminate].
  intros [= _ <-]. split; [reflexivity|]. split.
  - intros Hempty. now rewrite Hempty in Hfalsy.
  - split; [discriminate|]. now rewrite filteredRows_eq, Hfalsy, Hfilter.
Qed.

(** X19. The render committed between [onload] and the filter effect shows
    the "No results found" row: selecting a file has emptied the filtered
    set, [onload] stores the rows of an accepted sheet and ends loading, and
    the filtered set is recomputed only by the effect that follows. The row
    quotes the search text, the empty one included; after the effect, with an
    empty search text, the table shows every stored row. *)
Theorem no_results_flash_after_onload (st : AppState) (file : File)
    (files : list File) (row0 : gmap string JSValue)
    (rest : list (gmap string JSValue)) :
  hasAllHeaders (Object_keys row0) = true ->
  exists selected,
    dispatch (FileChange (file :: files)) st = Normal selected /\
    panel (render (handle (ReaderLoad (Normal (row0 :: rest))) selected))
      = Table expectedHeaders (NoResults (searchTerm st)) /\
    exists settled,
      dispatch (ReaderLoad (Normal (row0 :: rest))) selected = Normal settled /\
      (searchTerm st = "" ->
       panel (render settled)
         = Table expectedHeaders (Rows (map typedRow (row0 :: rest)))).
Proof.
  intros Hall. eexists. split; [apply dispatch_eq|].
  cbn [handle handleFileChange].
  rewrite reader_onload_accepted by exact Hall.
  split.
  - unfold render. simpl. now destruct (String_falsy (searchTerm st)).
  - eexists. split; [apply dispatch_eq|].
    cbn [handle]. rewrite reader_onload_accepted by exact Hall.
    intros Hterm. unfold render. simpl. now rewrite Hterm.
Qed.

(** X18. An upload that ends with an empty row set shows its error message and
    the "No data to display" placeholder. *)
Theorem failed_upload_shows_error (st : AppState) (file : File)
    (outcome : ReadOutcome) :
  let st' := parseAndValidate file outcome st in
  data st' = [] ->
  exists msg, error st' = Some msg /\
    errorText (render st') = Some msg /\
    searchDisabled (render st') = true /\
    panel (render st') = NoData.
Proof.
  unfold parseAndValidate.
  destruct outcome as [|[[|row0 rest]|e]].
  - intros _. exists readFailedMsg. repeat split.
  - intros _. exists emptyFileMsg. repeat split.
  - destruct (hasAllHeaders (Object_keys row0)) eqn:Hall.
    + rewrite reader_onload_accepted by exact Hall. simpl. discriminate.
    + rewrite reader_onload_rejected by exact Hall.
      intros _. exists missingColumnsMsg. repeat split.
  - intros _. exists parseFailedMsg. repeat split.
Qed.

End Properties.

(** ** Worked examples on the sample runtime *)

Section Examples.

#[local] Existing Instance sampleRuntime.

Example filter_B1 :
  filteredRows sampleRows "B1" = Normal [typedRow rowA].
Proof. vm_compute. reflexivity. Qed.

Example filter_number_cell :
  filteredRows sampleRows "45" = Normal [typedRow rowB].
Proof. vm_compute. reflexivity. Qed.

(** Without the optional chain the empty cell of [rowC] would throw. *)
Example toString_of_empty_cell :
  JS_toString (Cod_SEC (typedRow rowC)) = Throw TypeError.
Proof. vm_compute. reflexivity. Qed.

Example upload_then_search :
  (st ← run [FileChange [sampleFile]; ReaderLoad (Normal sampleSheet);
             SearchChange "12"] initialState;
   mret (displayedRows st))
  = Normal [typedRow rowA; typedRow rowB].
Proof. vm_compute. reflexivity. Qed.

Example empty_file_example :
  let st' := parseAndValidate (mkFile "empty.xlsx") (ReadDone (Normal []))
               initialState in
  error st' = Some emptyFileMsg /\ fileName st' = Some "empty.xlsx".
Proof. split; reflexivity. Qed.

Lemma filter_matches_Cod_SEC_only_witness :
  "B1" <> "" /\
  exists keep : IRowData -> bool,
    filteredRows sampleRows "B1" = Normal (List.filter keep sampleRows) /\
    (forall r, keep r = true <->
       exists s, JS_toString (Cod_SEC r) = Normal s /\
         exists pre post, toLowerCase s = pre +:+ toLowerCase "B1" +:+ post) /\
    (forall r r', Cod_SEC r = Cod_SEC r' -> keep r = keep r').
Proof.
  split; [discriminate|].
  apply (filter_matches_Cod_SEC_only sampleRows "B1"). discriminate.
Defined.

Lemma filter_empty_term_full_set_witness :
  searchTerm loadedState = "" /\
  exists st', filterData loadedState = Normal st' /\
    filteredData st' = data loadedState /\
    data st' = data loadedState /\
    length (filteredData st') = length (data loadedState) /\
    (isLoading loadedState = false ->
     length (displayedRows st') = length (data loadedState)).
Proof.
  split; [reflexivity|].
  apply (filter_empty_term_full_set loadedState). reflexivity.
Defined.

Lemma filter_null_Cod_SEC_excluded_witness :
  "a" <> "" /\
  (forall item, Cod_SEC item = JSNull \/ Cod_SEC item = JSUndefined ->
     filterCallback (toLowerCase "a") item = Normal None) /\
  exists out, filteredRows sampleRows "a" = Normal out /\
    forall item, In item out ->
      Cod_SEC item <> JSNull /\ Cod_SEC item <> JSUndefined.
Proof.
  split; [discriminate|].
  apply (filter_null_Cod_SEC_excluded sampleRows "a"). discriminate.
Defined.

Lemma Valor_expected : "Valor" ∈ expectedHeaders.
Proof. apply list_elem_of_In. simpl. tauto. Qed.

Lemma rowNoValor_lacks_Valor : rowNoValor !! "Valor" = None.
Proof. vm_compute. reflexivity. Qed.

Lemma rowA_complete : forall h, h ∈ expectedHeaders -> is_Some (rowA !! h).
Proof.
  intros h Hh. apply list_elem_of_In in Hh. simpl in Hh.
  destruct Hh as [<- | [<- | [<- | [<- | [<- | []]]]]]; vm_compute; eauto.
Qed.

Lemma missing_column_rejected_witness :
  "Valor" ∈ expectedHeaders /\ ("Valor" ∉ Object_keys rowNoValor) /\
  (let after := reader_onload (Normal [rowNoValor; rowB]) loadedState in
   error after = Some missingColumnsMsg /\ fileName after = None /\
   isLoading after = false /\ data after = data loadedState) /\
  (let st' := parseAndValidate sampleFile
                (ReadDone (Normal [rowNoValor; rowB])) loadedState in
   error st' = Some missingColumnsMsg /\ data st' = []).
Proof.
  assert (Hmiss : "Valor" ∉ Object_keys rowNoValor).
  { rewrite Object_keys_spec, rowNoValor_lacks_Valor. now intros [v Hv]. }
  split; [exact Valor_expected|]. split; [exact Hmiss|].
  exact (missing_column_rejected loadedState sampleFile rowNoValor [rowB]
           "Valor" Valor_expected Hmiss).
Defined.

(** C4 as the specification words it fails on two inputs. A sheet with no [Valor] column
    and no data row decodes to no rows: every decoded row lacks the column,
    and the message is the empty-file one. And when two reads overlap, the
    rejection of the second file leaves the rows of the first in the row
    set. *)
Lemma missing_column_claim_counterexample :
  ((exists h, h ∈ expectedHeaders /\
      Forall (fun row : gmap string JSValue => row !! h = None) []) /\
   let st' := parseAndValidate sampleFile (ReadDone (Normal [])) initialState in
   error st' = Some emptyFileMsg /\ error st' <> Some missingColumnsMsg) /\
  (rowNoValor !! "Valor" = None /\
   exists st',
     run [FileChange [sampleFile]; FileChange [otherFile];
          ReaderLoad (Normal [rowA; rowB]); ReaderLoad (Normal [rowNoValor])]
       initialState = Normal st' /\
     error st' = Some missingColumnsMsg /\
     data st' = [typedRow rowA; typedRow rowB] /\ data st' <> []).
Proof.
  split.
  - split.
    + exists "Valor". split; [exact Valor_expected | constructor].
    + split; [reflexivity|]. intros Heq. vm_compute in Heq. discriminate Heq.
  - split; [exact rowNoValor_lacks_Valor|].
    eexists. split; [vm_compute; reflexivity|].
    split; [reflexivity|]. split; [reflexivity | discriminate].
Qed.

Lemma parse_accepts_iff_all_headers_witness :
  let st' := parseAndValidate sampleFile (ReadDone (Normal sampleSheet))
               initialState in
  data st'
  = [ mkRow (num 1) (txt "Salvador") (txt "Ab12") (txt "Escola A") (num 100);
      mkRow (num 2) (txt "Feira") (num 4512) (txt "Escola B") (txt "7,50");
      mkRow (num 3) (txt "Ilheus") JSUndefined (txt "Escola C") JSUndefined ] /\
  data st' = map typedRow sampleSheet /\
  length (data st') = length sampleSheet /\
  Forall2 (fun row stored =>
             NTE stored = default JSUndefined (row !! "NTE") /\
             Municipio stored = default JSUndefined (row !! "Municipio") /\
             Cod_SEC stored = default JSUndefined (row !! "Cod.SEC") /\
             Nome_Escola stored = default JSUndefined (row !! "Nome Escola") /\
             Valor stored = default JSUndefined (row !! "Valor"))
    sampleSheet (data st') /\
  error st' = None.
Proof.
  split; [vm_compute; reflexivity|].
  destruct (parse_accepts_iff_all_headers initialState sampleFile sampleSheet)
    as (_ & Haccept & _).
  apply Haccept. exists rowA, [rowB; rowC]. split; [reflexivity|].
  intros h Hh. apply Object_keys_spec, rowA_complete, Hh.
Defined.

Lemma header_check_first_row_only_witness :
  (let st' := parseAndValidate sampleFile
                (ReadDone (Normal [rowNoValor; rowB])) initialState in
   error st' = Some missingColumnsMsg /\ data st' = [] /\
   fileName st' = None) /\
  (let st' := parseAndValidate sampleFile
                (ReadDone (Normal [rowA; rowNoValor])) initialState in
   error st' = None /\ data st' = map typedRow [rowA; rowNoValor]).
Proof.
  split.
  - destruct (header_check_first_row_only initialState sampleFile
                rowNoValor [rowB]) as (Hreject & _).
    exact (Hreject "Valor" Valor_expected rowNoValor_lacks_Valor).
  - destruct (header_check_first_row_only initialState sampleFile
                rowA [rowNoValor]) as (_ & Haccept).
    exact (Haccept rowA_complete).
Defined.

Lemma rowA_accepted : hasAllHeaders (Object_keys rowA) = true.
Proof. vm_compute. reflexivity. Qed.

Lemma rowB_accepted : hasAllHeaders (Object_keys rowB) = true.
Proof. vm_compute. reflexivity. Qed.

Lemma filter_term_case_insensitive_witness :
  "B1" <> "" /\ "b1" <> "" /\ toLowerCase "B1" = toLowerCase "b1" /\
  filteredRows sampleRows "B1" = filteredRows sampleRows "b1".
Proof.
  assert (Hlow : toLowerCase "B1" = toLowerCase "b1") by reflexivity.
  split; [discriminate|]. split; [discriminate|]. split; [exact Hlow|].
  apply (filter_term_case_insensitive sampleRows "B1" "b1");
    [discriminate | discriminate | exact Hlow].
Defined.

Lemma filter_finds_exact_code_witness :
  exists out, filteredRows sampleRows "AB12" = Normal out /\
              In (typedRow rowA) out.
Proof.
  apply (filter_finds_exact_code sampleRows "AB12" "Ab12" (typedRow rowA)).
  - discriminate.
  - simpl. tauto.
  - reflexivity.
  - reflexivity.
Defined.

Lemma filter_longer_term_narrows_witness :
  exists out out',
    filteredRows sampleRows "b" = Normal out /\
    filteredRows sampleRows "B1" = Normal out' /\
    out' `sublist_of` out /\
    filteredRows out "B1" = Normal out'.
Proof.
  apply (filter_longer_term_narrows sampleRows "b" "B1").
  - discriminate.
  - vm_compute. reflexivity.
Defined.

Lemma onload_reads_five_columns_only_witness :
  reader_onload (Normal [rowAWithNote; rowB]) initialState
  = reader_onload (Normal [rowA; rowB]) initialState.
Proof.
  apply onload_reads_five_columns_only.
  constructor; [|constructor; [reflexivity | constructor]].
  intros h Hh. apply list_elem_of_In in Hh. simpl in Hh.
  destruct Hh as [<- | [<- | [<- | [<- | [<- | []]]]]];
    vm_compute; reflexivity.
Defined.

Lemma upload_forgets_history_witness :
  run [FileChange [sampleFile]; readerEvent (ReadDone (Normal sampleSheet))]
    (setSearchTerm "45" initialState)
  = run [FileChange [sampleFile]; readerEvent (ReadDone (Normal sampleSheet))]
      searchingState.
Proof.
  apply (upload_forgets_history (setSearchTerm "45" initialState)
           searchingState sampleFile (ReadDone (Normal sampleSheet))).
  reflexivity.
Defined.

Lemma upload_keeps_search_text_witness :
  exists st',
    run [FileChange [sampleFile]; ReaderLoad (Normal [rowA; rowB; rowC])]
      searchingState = Normal st' /\
    searchTerm st' = searchTerm searchingState /\
    filteredRows (map typedRow [rowA; rowB; rowC]) (searchTerm searchingState)
      = Normal (filteredData st') /\
    displayedRows st' = filteredData st'.
Proof.
  exact (upload_keeps_search_text searchingState sampleFile rowA [rowB; rowC]
           rowA_accepted).
Defined.

Lemma clear_does_not_cancel_read_witness :
  exists st',
    run [FileChange [sampleFile]; ClearFile;
         ReaderLoad (Normal [rowA; rowB; rowC])] initialState = Normal st' /\
    data st' = map typedRow [rowA; rowB; rowC] /\
    displayedRows st' = data st' /\
    fileName st' = None /\ fileChip (render st') = None.
Proof.
  exact (clear_does_not_cancel_read initialState sampleFile rowA [rowB; rowC]
           rowA_accepted).
Defined.

Lemma late_read_overwrites_rows_witness :
  exists st',
    run [FileChange [sampleFile]; FileChange [otherFile];
         ReaderLoad (Normal [rowB]); ReaderLoad (Normal [rowA; rowC])]
      initialState = Normal st' /\
    data st' = map typedRow [rowA; rowC] /\
    fileName st' = Some (name otherFile) /\ error st' = None.
Proof.
  exact (late_read_overwrites_rows initialState sampleFile otherFile
           rowA rowB [rowC] [] rowA_accepted rowB_accepted).
Defined.

Lemma empty_code_cell_hidden_by_search_witness :
  "a" <> "" /\
  exists st',
    run [FileChange [sampleFile]; ReaderLoad (Normal [rowA; rowB; rowC]);
         SearchChange "a"] initialState = Normal st' /\
    forall row, In row [rowA; rowB; rowC] -> row !! "Cod.SEC" = None ->
      ~ In (typedRow row) (displayedRows st').
Proof.
  split; [discriminate|].
  apply (empty_code_cell_hidden_by_search initialState sampleFile rowA
           [rowB; rowC] "a" rowA_accepted).
  discriminate.
Defined.

Lemma failed_upload_shows_error_witness :
  let st' := parseAndValidate sampleFile ReadFailed loadedState in
  data st' = [] /\
  exists msg, error st' = Some msg /\
    errorText (render st') = Some msg /\
    searchDisabled (render st') = true /\
    panel (render st') = NoData.
Proof.
  split; [reflexivity|].
  apply (failed_upload_shows_error loadedState sampleFile ReadFailed).
  reflexivity.
Defined.

Lemma no_results_flash_after_onload_witness :
  exists selected,
    dispatch (FileChange [sampleFile]) initialState = Normal selected /\
    panel (render (handle (ReaderLoad (Normal [rowA; rowB; rowC])) selected))
      = Table expectedHeaders (NoResults (searchTerm initialState)) /\
    exists settled,
      dispatch (ReaderLoad (Normal [rowA; rowB; rowC])) selected
        = Normal settled /\
      (searchTerm initialState = "" ->
       panel (render settled)
         = Table expectedHeaders (Rows (map typedRow [rowA; rowB; rowC]))).
Proof.
  exact (no_results_flash_after_onload initialState sampleFile [] rowA
           [rowB; rowC] rowA_accepted).
Defined.

End Examples.
